(** * The HDF5 C lexer of the REST VOL design document

    [docs/design_doc/hdf5-c-lexer.py] subclasses Pygments' [CLexer] and
    overrides one method, [get_tokens_unprocessed]: every token the C lexer
    yields is passed on, and a token of type [Name] whose text is one of
    the HDF5 / MPI type names in [EXTRA_KEYWORDS] is passed on with type
    [Keyword] instead.

    The embedding follows the Python text: token types are Pygments'
    tuples of name components, a token is the triple the generator yields,
    and a generator is the trace of what it yields followed by the way it
    ends (exhausted, or an exception raised by the inherited lexer). *)

From Stdlib Require Import ZArith String List Bool.
From stdpp Require Import base list strings.

Open Scope string_scope.
Open Scope Z_scope.

(** ** Pygments token types ([pygments.token])

    [class _TokenType(tuple)]: a token type is the tuple of the attribute
    names that lead to it from the root [Token], so [Token.Name] is
    [('Name',)] and [Token.Name.Function] is [('Name', 'Function')].
    [__getattr__] creates a sub-type once and caches it with [setattr], so
    there is one object per tuple: Python's [a is b] on token types is
    equality of the tuples. *)
Module token.

Definition _TokenType : Type := list string.

Definition Token : _TokenType := [].

(** [_TokenType.__getattr__(self, val)]: [_TokenType(self + (val,))]. *)
Definition getattr (self : _TokenType) (val : string) : _TokenType :=
  (self ++ [val])%list.

Definition Text : _TokenType := getattr Token "Text".
Definition Keyword : _TokenType := getattr Token "Keyword".
Definition Name : _TokenType := getattr Token "Name".
Definition Comment : _TokenType := getattr Token "Comment".
Definition Punctuation : _TokenType := getattr Token "Punctuation".

(** [a is b]. *)
Definition is_ (a b : _TokenType) : bool := bool_decide (a = b).

(** [_TokenType.__contains__(self, val)]:
    [self is val or val[:len(self)] == self], the sub-type test
    written [val in self]. *)
Definition contains (self val : _TokenType) : bool :=
  is_ self val || bool_decide (take (length self) val = self).

End token.

(** ** Generators

    A generator over [A], observed from its consumer: each [next] either
    yields an item, or ends the iteration, or lets an exception escape.
    The inherited lexer scans a finite text and consumes input at every
    step, so its trace is finite. *)
Definition exception : Type := string.

Inductive generator (A : Type) : Type :=
| StopIteration : generator A
| Raise (e : exception) : generator A
| Yield (item : A) (rest : generator A) : generator A.

Arguments StopIteration {A}.
Arguments Raise {A} e.
Arguments Yield {A} item rest.

(** The items a generator yields, in order. *)
Fixpoint yielded {A : Type} (g : generator A) : list A :=
  match g with
  | StopIteration => []
  | Raise _ => []
  | Yield item rest => item :: yielded rest
  end.

(** How a generator ends: [None] when it is exhausted, [Some e] when the
    exception [e] escapes. *)
Fixpoint outcome {A : Type} (g : generator A) : option exception :=
  match g with
  | StopIteration => None
  | Raise e => Some e
  | Yield _ rest => outcome rest
  end.

(** [for item in g: yield body(item)]: the loop yields once per item, and
    what ends [g] ends the loop. *)
Fixpoint for_in_yield {A B : Type} (body : A -> B) (g : generator A)
  : generator B :=
  match g with
  | StopIteration => StopIteration
  | Raise e => Raise e
  | Yield item rest => Yield (body item) (for_in_yield body rest)
  end.

(** ** The lexer *)
Module HDF5CLexer.

Import token.

(** A token as [get_tokens_unprocessed] yields it:
    [(index, token, value)]. *)
Abbreviation token_triple := (Z * _TokenType * string)%type.

Definition name : string := "HDF5C".
Definition aliases : list string := ["hdf5c"].
Definition filenames : list string := ["*.c"].

Definition EXTRA_KEYWORDS : list string :=
  ["hid_t"; "herr_t"; "hbool_t"; "hsize_t"; "htri_t"; "H5I_type_t";
   "haddr_t"; "uuid_t"; "H5VL_token_t"; "H5R_ref_t"; "H5R_type_t";
   "H5O_type_t"; "H5G_obj_t"; "hobj_ref_t"; "hdset_reg_ref_t";
   "MPI_Comm"; "MPI_Info"].

(** [value in self.EXTRA_KEYWORDS]: [list.__contains__] compares the
    text with each entry by [==], which on [str] is equality of the
    two strings. *)
Definition in_ (value : string) (l : list string) : bool :=
  existsb (String.eqb value) l.

(** The body of the loop: the triple that is yielded for one triple of
    the inherited lexer. *)
Definition reclassify (item : token_triple) : token_triple :=
  let '(index, token, value) := item in
  if is_ token Name && in_ value EXTRA_KEYWORDS
  then (index, Keyword, value)
  else (index, token, value).

Section Override.

(** [CLexer.get_tokens_unprocessed(self, text)], the inherited C
    lexer of Pygments. *)
Variable CLexer_get_tokens_unprocessed :
  string -> generator token_triple.

Definition get_tokens_unprocessed (text : string)
  : generator token_triple :=
  for_in_yield reclassify (CLexer_get_tokens_unprocessed text).

End Override.

End HDF5CLexer.

Import token HDF5CLexer.

(** Two token streams to run the lexer on: what a C lexer yields for
    [hid_t file_id;] and for [hid_t hid_t() {], where the second [hid_t]
    is a function name. *)
Definition Name_Function : _TokenType := getattr Name "Function".

Definition sample_lexer (text : string) : generator token_triple :=
  if String.eqb text "hid_t file_id;" then
    Yield (0, Name, "hid_t")
      (Yield (5, Text, " ")
         (Yield (6, Name, "file_id")
            (Yield (13, Punctuation, ";") StopIteration)))
  else if String.eqb text "hid_t hid_t() {" then
    Yield (0, Name, "hid_t")
      (Yield (5, Text, " ")
         (Yield (6, Name_Function, "hid_t")
            (Yield (11, Punctuation, "(")
               (Yield (12, Punctuation, ")")
                  (Yield (13, Text, " ")
                     (Yield (14, Punctuation, "{") StopIteration))))))
  else StopIteration.

(** An inherited lexer that fails after its first token. *)
Definition failing_lexer (text : string) : generator token_triple :=
  Yield (0, Name, "herr_t") (Raise "UnicodeDecodeError").

(** What a C lexer yields for [MPI_Comm_rank(c);]: the name of the MPI
    function starts with the keyword [MPI_Comm]. *)
Definition call_lexer (text : string) : generator token_triple :=
  if String.eqb text "MPI_Comm_rank(c);" then
    Yield (0, Name, "MPI_Comm_rank")
      (Yield (13, Punctuation, "(")
         (Yield (14, Name, "c")
            (Yield (15, Punctuation, ")")
               (Yield (16, Punctuation, ";") StopIteration))))
  else StopIteration.

(** The match condition of the loop, on one triple. *)
Definition matches (item : token_triple) : Prop :=
  item.1.2 = Name ∧ item.2 ∈ EXTRA_KEYWORDS.

(** A triple that already has type [Keyword] and a text in
    [EXTRA_KEYWORDS]: what a reclassified token looks like. *)
Definition keyword_typed (item : token_triple) : Prop :=
  item.1.2 = Keyword ∧ item.2 ∈ EXTRA_KEYWORDS.

#[local] Instance matches_dec item : Decision (matches item).
Proof. unfold matches. apply _. Defined.

#[local] Instance keyword_typed_dec item : Decision (keyword_typed item).
Proof. unfold keyword_typed. apply _. Defined.

(** ** Calls of the method

    Pygments calls the method on a lexer object either as
    [lx.get_tokens_unprocessed(text)] or, from the callback of
    [using(this, state=s)], as
    [lx.get_tokens_unprocessed(text, stack=('root', s))]. The method the
    call reaches is the one of the object's class: on an [HDF5CLexer]
    object, the override. *)
Definition stack : Type := list string.

(** [lx.get_tokens_unprocessed] as its callers see it: called with a text
    and, when [Some], with the keyword [stack]. *)
Definition bound_method : Type :=
  string -> option stack -> generator token_triple.

(** [yield from g], then [rest]: an exception that escapes [g] ends the
    whole. *)
Fixpoint yield_from {A : Type} (g rest : generator A) : generator A :=
  match g with
  | StopIteration => rest
  | Raise e => Raise e
  | Yield item g' => Yield item (yield_from g' rest)
  end.

(** [pygments.lexer.using(this, **kwargs)], the callback it returns, for a
    match that starts at [s]:
    [for i, t, v in lx.get_tokens_unprocessed(match.group(), **gt_kwargs):
       yield i + s, t, v]
    where [lx] is the lexer object that runs the rule. *)
Definition using_this (gt_kwargs : option stack) (lx : bound_method)
    (s : Z) (group : string) : generator token_triple :=
  for_in_yield (λ item : token_triple, (item.1.1 + s, item.1.2, item.2))
    (lx group gt_kwargs).

Section Objects.

(** [CLexer.get_tokens_unprocessed(self, text, stack)] of Pygments, open
    in the method its rules reach through [self]. *)
Variable CLexer_get_tokens_unprocessed :
  bound_method -> string -> stack -> generator token_triple.

(** The method of an [HDF5CLexer] object. Its signature is
    [(self, text)]: a call that passes [stack] raises [TypeError] before
    the body runs; a call without it runs the override, whose inherited
    call passes no [stack], so that the default [('root',)] is used.
    [depth] is what is left of the interpreter's recursion limit. *)
Fixpoint HDF5CLexer_method (depth : nat) (text : string)
    (kwargs : option stack) {struct depth} : generator token_triple :=
  match kwargs with
  | Some _ => Raise "TypeError"
  | None =>
      match depth with
      | O => Raise "RecursionError"
      | S depth' =>
          get_tokens_unprocessed
            (λ text',
               CLexer_get_tokens_unprocessed (HDF5CLexer_method depth')
                 text' ["root"])
            text
      end
  end.

(** The method of a plain [CLexer] object: its signature is
    [(self, text, stack=('root',))]. *)
Fixpoint CLexer_method (depth : nat) (text : string)
    (kwargs : option stack) {struct depth} : generator token_triple :=
  match depth with
  | O => Raise "RecursionError"
  | S depth' =>
      CLexer_get_tokens_unprocessed (CLexer_method depth') text
        (default ["root"] kwargs)
  end.

End Objects.

(** The part of the C grammar that decides the run on [hid_t f();]: the
    rule for function declarations of [CFamilyLexer.tokens['root']],
    whose action is
    [bygroups(using(this), using(this, state='whitespace'), Name.Function,
              using(this, state='whitespace'), using(this),
              using(this, state='whitespace'), using(this), Punctuation)],
    on the groups ["hid_t "], [""], ["f"], [""], ["()"], [""], [""],
    [";"] of the match; the texts of the groups are lexed by the plain
    rules. *)
Definition Whitespace : _TokenType := getattr Text "Whitespace".

Definition declaration_lexer (self : bound_method) (text : string)
    (st : stack) : generator token_triple :=
  if String.eqb text "hid_t f();" then
    yield_from (using_this None self 0 "hid_t ")
      (yield_from (using_this (Some ["root"; "whitespace"]) self 6 "")
         (Yield (6, Name_Function, "f")
            (yield_from (using_this (Some ["root"; "whitespace"]) self 7 "")
               (yield_from (using_this None self 7 "()")
                  (yield_from
                     (using_this (Some ["root"; "whitespace"]) self 9 "")
                     (yield_from (using_this None self 9 "")
                        (Yield (9, Punctuation, ";") StopIteration)))))))
  else if String.eqb text "hid_t " then
    Yield (0, Name, "hid_t") (Yield (5, Whitespace, " ") StopIteration)
  else if String.eqb text "()" then
    Yield (0, Punctuation, "(") (Yield (1, Punctuation, ")") StopIteration)
  else StopIteration.

Example sample_run :
  yielded (get_tokens_unprocessed sample_lexer "hid_t file_id;")
  = [(0, Keyword, "hid_t"); (5, Text, " ");
     (6, Name, "file_id"); (13, Punctuation, ";")].
Proof. reflexivity. Qed.

Example sample_run_function :
  yielded (get_tokens_unprocessed sample_lexer "hid_t hid_t() {")
  = [(0, Keyword, "hid_t"); (5, Text, " "); (6, Name_Function, "hid_t");
     (11, Punctuation, "("); (12, Punctuation, ")"); (13, Text, " ");
     (14, Punctuation, "{")].
Proof. reflexivity. Qed.

Example failing_run :
  get_tokens_unprocessed failing_lexer "herr_t"
  = Yield (0, Keyword, "herr_t") (Raise "UnicodeDecodeError").
Proof. reflexivity. Qed.

(** ** The generator loop *)

Lemma yielded_for_in_yield {A B : Type} (body : A -> B) (g : generator A) :
  yielded (for_in_yield body g) = body <$> yielded g.
Proof.
  induction g as [| e | item rest IH]; simpl; [done | done |].
  by rewrite IH.
Qed.

Lemma outcome_for_in_yield {A B : Type} (body : A -> B) (g : generator A) :
  outcome (for_in_yield body g) = outcome g.
Proof. induction g as [| e | item rest IH]; simpl; auto. Qed.

Lemma for_in_yield_compose {A B C : Type}
    (f : A -> B) (h : B -> C) (g : generator A) :
  for_in_yield h (for_in_yield f g) = for_in_yield (h ∘ f) g.
Proof.
  induction g as [| e | item rest IH]; simpl; [done | done |].
  by rewrite IH.
Qed.

Lemma for_in_yield_ext {A B : Type} (f h : A -> B) (g : generator A) :
  (forall a, f a = h a) -> for_in_yield f g = for_in_yield h g.
Proof.
  intros Hfh. induction g as [| e | item rest IH]; simpl; [done | done |].
  by rewrite Hfh, IH.
Qed.

(** ** The two tests of the loop body *)

Lemma is_true_iff (a b : _TokenType) : is_ a b = true <-> a = b.
Proof. unfold is_. apply bool_decide_eq_true. Qed.

Lemma in_true_iff (value : string) (l : list string) :
  in_ value l = true <-> value ∈ l.
Proof.
  unfold in_. rewrite existsb_exists. split.
  - intros (x & Hx & Heq). apply String.eqb_eq in Heq. subst x.
    by apply list_elem_of_In.
  - intros Hin. exists value. split; [by apply list_elem_of_In |].
    apply String.eqb_refl.
Qed.

Lemma Keyword_is_not_Name : is_ Keyword Name = false.
Proof. reflexivity. Qed.

(** The loop body, case by case. *)
Lemma reclassify_match index value :
  value ∈ EXTRA_KEYWORDS ->
  reclassify (index, Name, value) = (index, Keyword, value).
Proof.
  intros Hin. apply in_true_iff in Hin. unfold reclassify.
  by rewrite Hin.
Qed.

Lemma reclassify_other index token value :
  ¬ (token = Name ∧ value ∈ EXTRA_KEYWORDS) ->
  reclassify (index, token, value) = (index, token, value).
Proof.
  intros Hno. unfold reclassify.
  destruct (is_ token Name && in_ value EXTRA_KEYWORDS) eqn:Htest; [| done].
  apply andb_true_iff in Htest as [His Hin].
  apply is_true_iff in His. apply in_true_iff in Hin. by destruct Hno.
Qed.

Lemma reclassify_index_value item :
  (reclassify item).1.1 = item.1.1 ∧ (reclassify item).2 = item.2.
Proof.
  destruct item as [[index token] value]. unfold reclassify.
  by destruct (is_ token Name && in_ value EXTRA_KEYWORDS).
Qed.

Lemma reclassify_idempotent item : reclassify (reclassify item) = reclassify item.
Proof.
  destruct item as [[index token] value]. unfold reclassify at 2 3.
  destruct (is_ token Name && in_ value EXTRA_KEYWORDS) eqn:Htest.
  - unfold reclassify. by rewrite Keyword_is_not_Name.
  - unfold reclassify. by rewrite Htest.
Qed.

(** What the override yields at place [i] is the loop body applied to what
    the inherited lexer yields at place [i]. *)
Lemma lookup_get_tokens_unprocessed upstream text (i : nat) :
  yielded (get_tokens_unprocessed upstream text) !! i
  = reclassify <$> yielded (upstream text) !! i.
Proof.
  unfold get_tokens_unprocessed.
  by rewrite yielded_for_in_yield, list_lookup_fmap.
Qed.

(** ** The keyword list *)

(** C2, as the code has it: [EXTRA_KEYWORDS] holds exactly 17 strings
    (and no string twice), not 18. *)
Theorem EXTRA_KEYWORDS_has_17_entries :
  length EXTRA_KEYWORDS = 17%nat ∧ NoDup EXTRA_KEYWORDS.
Proof. split; [reflexivity | compute_done]. Qed.

(** C2, as stated, fails: the number of strings in [EXTRA_KEYWORDS] is
    not 18. *)
Lemma EXTRA_KEYWORDS_not_18_entries : length EXTRA_KEYWORDS ≠ 18%nat.
Proof. discriminate. Qed.

(** ** The override, token by token *)

Section Properties.

Variable upstream : string -> generator token_triple.
Variable text : string.

(** C1: a token of type [Name] whose text is in [EXTRA_KEYWORDS],
    yielded by the inherited lexer at place [i], is yielded by
    [get_tokens_unprocessed] at place [i] with type [Keyword], its
    position and text unchanged. *)
Theorem name_in_keywords_yields_keyword (i : nat) index value :
  yielded (upstream text) !! i = Some (index, Name, value) ->
  value ∈ EXTRA_KEYWORDS ->
  yielded (get_tokens_unprocessed upstream text) !! i
  = Some (index, Keyword, value).
Proof.
  intros Hi Hin. rewrite lookup_get_tokens_unprocessed, Hi.
  apply (f_equal Some). by apply reclassify_match.
Qed.

(** C3: a token that does not satisfy the match condition (type exactly
    [Name] and text in [EXTRA_KEYWORDS]) is yielded as it is: same
    position, same type, same text. *)
Theorem other_token_yielded_unchanged (i : nat) index token value :
  yielded (upstream text) !! i = Some (index, token, value) ->
  ¬ (token = Name ∧ value ∈ EXTRA_KEYWORDS) ->
  yielded (get_tokens_unprocessed upstream text) !! i
  = Some (index, token, value).
Proof.
  intros Hi Hno. rewrite lookup_get_tokens_unprocessed, Hi.
  apply (f_equal Some). by apply reclassify_other.
Qed.

(** C4: the output has as many tokens as the input, and the token at
    each place is the loop body applied to the input token at that
    place, with the input's position and text: nothing is inserted,
    deleted, merged or reordered. *)
Theorem same_length_same_order :
  length (yielded (get_tokens_unprocessed upstream text))
  = length (yielded (upstream text))
  ∧ yielded (get_tokens_unprocessed upstream text)
    = reclassify <$> yielded (upstream text)
  ∧ (yielded (get_tokens_unprocessed upstream text)).*1.*1
    = (yielded (upstream text)).*1.*1
  ∧ (yielded (get_tokens_unprocessed upstream text)).*2
    = (yielded (upstream text)).*2.
Proof.
  unfold get_tokens_unprocessed. rewrite yielded_for_in_yield.
  split_and!.
  - by rewrite length_fmap.
  - done.
  - rewrite <- !list_fmap_compose. apply list_fmap_ext.
    intros j item _. simpl. apply reclassify_index_value.
  - rewrite <- list_fmap_compose. apply list_fmap_ext.
    intros j item _. simpl. apply reclassify_index_value.
Qed.

(** C5: the filter is idempotent. Running the loop once more over the
    output of [get_tokens_unprocessed] (equivalently, stacking the
    override on itself) gives the same generator: a token that was
    reclassified has type [Keyword], which is not [Name]. *)
Theorem filter_idempotent :
  for_in_yield reclassify (get_tokens_unprocessed upstream text)
  = get_tokens_unprocessed upstream text
  ∧ get_tokens_unprocessed (get_tokens_unprocessed upstream) text
    = get_tokens_unprocessed upstream text.
Proof.
  assert (Hloop :
    for_in_yield reclassify (get_tokens_unprocessed upstream text)
    = get_tokens_unprocessed upstream text).
  { unfold get_tokens_unprocessed. rewrite for_in_yield_compose.
    apply for_in_yield_ext. intros item. apply reclassify_idempotent. }
  split; [exact Hloop |]. exact Hloop.
Qed.

(** The loop of the override ends the way the stream it iterates ends,
    after as many tokens. *)
Lemma loop_ends_as_iterated_stream :
  outcome (get_tokens_unprocessed upstream text) = outcome (upstream text)
  ∧ length (yielded (get_tokens_unprocessed upstream text))
    = length (yielded (upstream text)).
Proof.
  unfold get_tokens_unprocessed.
  by rewrite outcome_for_in_yield, yielded_for_in_yield, length_fmap.
Qed.

(** C9: a token whose type is a strict sub-type of [Name]
    ([Name.Function], [Name.Builtin], ...) is yielded unchanged,
    whatever its text, also a text in [EXTRA_KEYWORDS]. *)
Theorem name_subtype_yielded_unchanged (i : nat) index token value :
  contains Name token = true ->
  token ≠ Name ->
  yielded (upstream text) !! i = Some (index, token, value) ->
  yielded (get_tokens_unprocessed upstream text) !! i
  = Some (index, token, value).
Proof.
  intros _ Hstrict Hi. rewrite lookup_get_tokens_unprocessed, Hi.
  apply (f_equal Some), reclassify_other. by intros [Heq _].
Qed.

(** C10: no token in the output of [get_tokens_unprocessed] has type
    exactly [Name] together with a text in [EXTRA_KEYWORDS]. *)
Theorem no_plain_keyword_in_output :
  Forall (λ item : token_triple,
            ¬ (item.1.2 = Name ∧ item.2 ∈ EXTRA_KEYWORDS))
         (yielded (get_tokens_unprocessed upstream text)).
Proof.
  unfold get_tokens_unprocessed.
  rewrite yielded_for_in_yield, Forall_fmap. apply Forall_true.
  intros [[index token] value]. unfold compose, reclassify.
  destruct (is_ token Name && in_ value EXTRA_KEYWORDS) eqn:Htest; simpl.
  - by intros [Heq _].
  - intros [Heq Hin]. apply is_true_iff in Heq. apply in_true_iff in Hin.
    by rewrite Heq, Hin in Htest.
Qed.

End Properties.

(** C6: what is yielded at place [i] depends on the input token at place
    [i] alone. Two runs whose inputs agree at place [i] agree at place
    [i] of their outputs, whatever the other tokens are; and the output
    token is the input token with its type replaced by [Keyword] exactly
    when the type equals [Name] and the text equals an entry of
    [EXTRA_KEYWORDS]. *)
Theorem output_depends_on_same_place_only
    (upstream1 upstream2 : string -> generator token_triple)
    (text1 text2 : string) (i : nat) :
  yielded (upstream1 text1) !! i = yielded (upstream2 text2) !! i ->
  yielded (get_tokens_unprocessed upstream1 text1) !! i
  = yielded (get_tokens_unprocessed upstream2 text2) !! i
  ∧ yielded (get_tokens_unprocessed upstream1 text1) !! i
    = (λ item : token_triple,
         (item.1.1,
          if bool_decide (item.1.2 = Name ∧ item.2 ∈ EXTRA_KEYWORDS)
          then Keyword else item.1.2,
          item.2))
      <$> yielded (upstream1 text1) !! i.
Proof.
  intros Hagree. rewrite !lookup_get_tokens_unprocessed, Hagree.
  split; [done |].
  destruct (yielded (upstream2 text2) !! i) as [[[index token] value] |];
    [| done].
  apply (f_equal Some). simpl. case_bool_decide as Hmatch.
  - destruct Hmatch as [-> Hin]. by apply reclassify_match.
  - by apply reclassify_other.
Qed.

(** The comparison of texts is exact: another spelling of a keyword is
    not a keyword. *)
Example case_sensitive (text : string) :
  get_tokens_unprocessed (λ _, Yield (0, Name, "HID_T") StopIteration) text
  = Yield (0, Name, "HID_T") StopIteration
  ∧ get_tokens_unprocessed (λ _, Yield (0, Name, "mpi_comm") StopIteration) text
    = Yield (0, Name, "mpi_comm") StopIteration.
Proof. split; reflexivity. Qed.

(** C7: the examples of the specification. [(10, Name, "hid_t")] is
    yielded as [(10, Keyword, "hid_t")]; [(20, Name, "int")] and
    [(5, Comment, "hid_t")] are yielded unchanged. *)
Theorem spec_examples (text : string) :
  get_tokens_unprocessed (λ _, Yield (10, Name, "hid_t") StopIteration) text
  = Yield (10, Keyword, "hid_t") StopIteration
  ∧ get_tokens_unprocessed (λ _, Yield (20, Name, "int") StopIteration) text
    = Yield (20, Name, "int") StopIteration
  ∧ get_tokens_unprocessed (λ _, Yield (5, Comment, "hid_t") StopIteration) text
    = Yield (5, Comment, "hid_t") StopIteration.
Proof. split_and!; reflexivity. Qed.

(** ** The theorems at work on the sample streams *)

Lemma name_in_keywords_yields_keyword_witness :
  yielded (sample_lexer "hid_t file_id;") !! 0%nat = Some (0, Name, "hid_t")
  ∧ "hid_t" ∈ EXTRA_KEYWORDS
  ∧ yielded (get_tokens_unprocessed sample_lexer "hid_t file_id;") !! 0%nat
    = Some (0, Keyword, "hid_t").
Proof.
  assert (Hi : yielded (sample_lexer "hid_t file_id;") !! 0%nat
               = Some (0, Name, "hid_t")) by reflexivity.
  assert (Hin : "hid_t" ∈ EXTRA_KEYWORDS) by compute_done.
  split_and!; [exact Hi | exact Hin |].
  exact (name_in_keywords_yields_keyword sample_lexer _ 0%nat 0 "hid_t" Hi Hin).
Defined.

Lemma other_token_yielded_unchanged_witness :
  yielded (sample_lexer "hid_t file_id;") !! 2%nat = Some (6, Name, "file_id")
  ∧ ¬ (Name = Name ∧ "file_id" ∈ EXTRA_KEYWORDS)
  ∧ yielded (get_tokens_unprocessed sample_lexer "hid_t file_id;") !! 2%nat
    = Some (6, Name, "file_id").
Proof.
  assert (Hi : yielded (sample_lexer "hid_t file_id;") !! 2%nat
               = Some (6, Name, "file_id")) by reflexivity.
  assert (Hno : ¬ (Name = Name ∧ "file_id" ∈ EXTRA_KEYWORDS)) by compute_done.
  split_and!; [exact Hi | exact Hno |].
  exact (other_token_yielded_unchanged sample_lexer _ 2%nat 6 Name "file_id"
           Hi Hno).
Defined.

Lemma name_subtype_yielded_unchanged_witness :
  contains Name Name_Function = true
  ∧ Name_Function ≠ Name
  ∧ "hid_t" ∈ EXTRA_KEYWORDS
  ∧ yielded (sample_lexer "hid_t hid_t() {") !! 2%nat
    = Some (6, Name_Function, "hid_t")
  ∧ yielded (get_tokens_unprocessed sample_lexer "hid_t hid_t() {") !! 2%nat
    = Some (6, Name_Function, "hid_t").
Proof.
  assert (Hsub : contains Name Name_Function = true) by reflexivity.
  assert (Hstrict : Name_Function ≠ Name) by discriminate.
  assert (Hi : yielded (sample_lexer "hid_t hid_t() {") !! 2%nat
               = Some (6, Name_Function, "hid_t")) by reflexivity.
  split_and!; [exact Hsub | exact Hstrict | compute_done | exact Hi |].
  exact (name_subtype_yielded_unchanged sample_lexer _ 2%nat 6 Name_Function
           "hid_t" Hsub Hstrict Hi).
Defined.

Lemma output_depends_on_same_place_only_witness :
  yielded (sample_lexer "hid_t file_id;") !! 0%nat
  = yielded (sample_lexer "hid_t hid_t() {") !! 0%nat
  ∧ yielded (sample_lexer "hid_t file_id;")
    ≠ yielded (sample_lexer "hid_t hid_t() {")
  ∧ yielded (get_tokens_unprocessed sample_lexer "hid_t file_id;") !! 0%nat
    = yielded (get_tokens_unprocessed sample_lexer "hid_t hid_t() {") !! 0%nat.
Proof.
  assert (Hagree : yielded (sample_lexer "hid_t file_id;") !! 0%nat
                   = yielded (sample_lexer "hid_t hid_t() {") !! 0%nat)
    by reflexivity.
  split_and!; [exact Hagree | discriminate |].
  exact (proj1 (output_depends_on_same_place_only sample_lexer sample_lexer
                  _ _ 0%nat Hagree)).
Defined.


(** ** Further properties of the override *)

Lemma reclassify_matches item :
  matches item -> reclassify item = (item.1.1, Keyword, item.2).
Proof.
  destruct item as [[index token] value]. intros [Htype Hin].
  simpl in Htype, Hin. subst token. by apply reclassify_match.
Qed.

Lemma reclassify_not_matches item : ¬ matches item -> reclassify item = item.
Proof.
  destruct item as [[index token] value]. intros Hno.
  by apply reclassify_other.
Qed.

Lemma reclassify_fixed_iff item : reclassify item = item <-> ¬ matches item.
Proof.
  split; [| apply reclassify_not_matches].
  intros Hfix Hm. rewrite (reclassify_matches _ Hm) in Hfix.
  destruct item as [[index token] value]. destruct Hm as [Htype _].
  simpl in *. by simplify_eq.
Qed.

Lemma for_in_yield_fixed_iff {A : Type} (body : A -> A) (g : generator A) :
  for_in_yield body g = g <-> Forall (λ item, body item = item) (yielded g).
Proof.
  induction g as [| e | item rest IH]; simpl.
  - split; [constructor | done].
  - split; [constructor | done].
  - rewrite Forall_cons, <- IH. split.
    + intros Heq. by simplify_eq.
    + intros [-> ->]. done.
Qed.

(** X1: the override hands on the inherited lexer's generator as it is
    exactly when no token of that generator satisfies the match condition
    (type [Name] and text in [EXTRA_KEYWORDS]). *)
Theorem unchanged_iff_no_match upstream text :
  get_tokens_unprocessed upstream text = upstream text
  <-> Forall (λ item, ¬ matches item) (yielded (upstream text)).
Proof.
  unfold get_tokens_unprocessed. rewrite for_in_yield_fixed_iff.
  apply Forall_iff. intros item. apply reclassify_fixed_iff.
Qed.

(** X2: the override keeps the lexer's contract on texts. When the texts
    of the tokens of the inherited lexer, joined, give back the input
    text, so do the texts of the tokens of the override. *)
Theorem joined_text_preserved upstream text :
  String.concat "" (yielded (upstream text)).*2 = text ->
  String.concat "" (yielded (get_tokens_unprocessed upstream text)).*2 = text.
Proof.
  intros Hjoin. unfold get_tokens_unprocessed.
  rewrite yielded_for_in_yield, <- list_fmap_compose.
  rewrite (list_fmap_ext (snd ∘ reclassify) snd (yielded (upstream text)));
    [done |].
  intros j item _. apply reclassify_index_value.
Qed.

Lemma joined_text_preserved_witness :
  String.concat "" (yielded (sample_lexer "hid_t file_id;")).*2
  = "hid_t file_id;"
  ∧ String.concat ""
      (yielded (get_tokens_unprocessed sample_lexer "hid_t file_id;")).*2
    = "hid_t file_id;".
Proof.
  assert (Hjoin : String.concat "" (yielded (sample_lexer "hid_t file_id;")).*2
                  = "hid_t file_id;") by reflexivity.
  split; [exact Hjoin |].
  exact (joined_text_preserved sample_lexer "hid_t file_id;" Hjoin).
Defined.

Lemma count_types_reclassify (T : _TokenType) (l : list token_triple) :
  (length (filter (λ item : token_triple, item.1.2 = T) (reclassify <$> l))
   + (if bool_decide (T = Name) then length (filter matches l) else 0)
   = length (filter (λ item : token_triple, item.1.2 = T) l)
     + (if bool_decide (T = Keyword) then length (filter matches l) else 0))%nat.
Proof.
  induction l as [| item l IH]; [by repeat case_bool_decide |].
  rewrite fmap_cons. destruct (decide (matches item)) as [Hm | Hm].
  - rewrite (reclassify_matches _ Hm), (filter_cons_True matches) by done.
    destruct Hm as [Htype _]. rewrite !filter_cons. simpl. rewrite Htype.
    repeat case_decide; repeat case_bool_decide; simplify_eq; simpl in *; lia.
  - rewrite (reclassify_not_matches _ Hm), (filter_cons_False matches) by done.
    rewrite !filter_cons. destruct (decide (item.1.2 = T)); cbn [length]; lia.
Qed.

(** X3: the override moves tokens from type [Name] to type [Keyword] and
    touches no other type. With [m] the number of input tokens that
    satisfy the match condition, the output has [m] more tokens of type
    [Keyword], [m] fewer of type [Name], and as many of every other type
    as the input. *)
Theorem token_types_conserved upstream text (T : _TokenType) :
  (length (filter (λ item : token_triple, item.1.2 = T)
             (yielded (get_tokens_unprocessed upstream text)))
   + (if bool_decide (T = Name)
      then length (filter matches (yielded (upstream text))) else 0)
   = length (filter (λ item : token_triple, item.1.2 = T)
               (yielded (upstream text)))
     + (if bool_decide (T = Keyword)
        then length (filter matches (yielded (upstream text))) else 0))%nat.
Proof.
  unfold get_tokens_unprocessed. rewrite yielded_for_in_yield.
  apply count_types_reclassify.
Qed.

Example token_types_conserved_sample :
  length (filter (λ item : token_triple, item.1.2 = Keyword)
            (yielded (get_tokens_unprocessed sample_lexer "hid_t hid_t() {")))
  = 1%nat
  ∧ length (filter (λ item : token_triple, item.1.2 = Name)
              (yielded (get_tokens_unprocessed sample_lexer "hid_t hid_t() {")))
    = 0%nat
  ∧ length (filter matches (yielded (sample_lexer "hid_t hid_t() {"))) = 1%nat.
Proof. split_and!; reflexivity. Qed.

Lemma reclassify_injective_on (a b : token_triple) :
  ¬ keyword_typed a -> ¬ keyword_typed b ->
  reclassify a = reclassify b -> a = b.
Proof.
  intros Ha Hb Heq.
  destruct (decide (matches a)) as [Hma | Hma];
    destruct (decide (matches b)) as [Hmb | Hmb].
  - rewrite (reclassify_matches _ Hma), (reclassify_matches _ Hmb) in Heq.
    destruct a as [[ia ta] va], b as [[ib tb] vb].
    destruct Hma as [Hta _], Hmb as [Htb _]. simpl in *. by simplify_eq.
  - rewrite (reclassify_matches _ Hma), (reclassify_not_matches _ Hmb) in Heq.
    destruct Hb. subst b. split; [done |]. by destruct Hma.
  - rewrite (reclassify_not_matches _ Hma), (reclassify_matches _ Hmb) in Heq.
    destruct Ha. subst a. split; [done |]. by destruct Hmb.
  - by rewrite (reclassify_not_matches _ Hma), (reclassify_not_matches _ Hmb)
      in Heq.
Qed.

Lemma for_in_yield_injective_on {A B : Type} (body : A -> B) (P : A -> Prop) :
  (forall a b, P a -> P b -> body a = body b -> a = b) ->
  forall g1 g2 : generator A,
    Forall P (yielded g1) -> Forall P (yielded g2) ->
    for_in_yield body g1 = for_in_yield body g2 -> g1 = g2.
Proof.
  intros Hinj g1.
  induction g1 as [| e1 | a rest1 IH]; intros [| e2 | b rest2] H1 H2 Heq;
    simpl in *; simplify_eq; try done.
  apply Forall_cons in H1 as [Ha H1]. apply Forall_cons in H2 as [Hb H2].
  f_equal; [by apply Hinj | by apply IH].
Qed.

(** X4: the override loses nothing on streams that hold no token of type
    [Keyword] with a text in [EXTRA_KEYWORDS]. Two runs of the inherited
    lexer with no such token that give the same output of the override
    were the same run: same tokens, same end. *)
Theorem reclassification_is_reversible
    (upstream1 upstream2 : string -> generator token_triple)
    (text1 text2 : string) :
  Forall (λ item, ¬ keyword_typed item) (yielded (upstream1 text1)) ->
  Forall (λ item, ¬ keyword_typed item) (yielded (upstream2 text2)) ->
  get_tokens_unprocessed upstream1 text1
  = get_tokens_unprocessed upstream2 text2 ->
  upstream1 text1 = upstream2 text2.
Proof.
  intros H1 H2 Heq.
  by apply (for_in_yield_injective_on reclassify
              (λ item, ¬ keyword_typed item) reclassify_injective_on).
Qed.

(** Without that condition a reclassified token cannot be told from a
    token that was a keyword before. *)
Example reclassification_loses_prior_keywords (text : string) :
  get_tokens_unprocessed (λ _, Yield (0, Name, "hid_t") StopIteration) text
  = get_tokens_unprocessed (λ _, Yield (0, Keyword, "hid_t") StopIteration) text.
Proof. reflexivity. Qed.

Lemma reclassification_is_reversible_witness :
  Forall (λ item, ¬ keyword_typed item)
    (yielded (sample_lexer "hid_t file_id;"))
  ∧ Forall (λ item, ¬ keyword_typed item)
      (yielded (sample_lexer "hid_t hid_t() {"))
  ∧ get_tokens_unprocessed sample_lexer "hid_t file_id;"
    = get_tokens_unprocessed (λ _, sample_lexer "hid_t file_id;") ""
  ∧ sample_lexer "hid_t file_id;" = sample_lexer "hid_t file_id;".
Proof.
  assert (H1 : Forall (λ item, ¬ keyword_typed item)
                 (yielded (sample_lexer "hid_t file_id;"))) by compute_done.
  assert (H2 : Forall (λ item, ¬ keyword_typed item)
                 (yielded (sample_lexer "hid_t hid_t() {"))) by compute_done.
  assert (Heq : get_tokens_unprocessed sample_lexer "hid_t file_id;"
                = get_tokens_unprocessed (λ _, sample_lexer "hid_t file_id;") "")
    by reflexivity.
  split_and!; [exact H1 | exact H2 | exact Heq |].
  exact (reclassification_is_reversible
           sample_lexer (λ _, sample_lexer "hid_t file_id;")
           "hid_t file_id;" "" H1 H1 Heq).
Defined.

Lemma keyword_extended_not_keyword (kw suffix : string) :
  kw ∈ EXTRA_KEYWORDS -> suffix ≠ "" ->
  in_ (kw ++ suffix) EXTRA_KEYWORDS = false.
Proof.
  intros Hin Hne. unfold EXTRA_KEYWORDS in Hin.
  repeat (apply elem_of_cons in Hin as [-> | Hin]);
    [.. | by apply elem_of_nil in Hin];
    (destruct suffix as [| c suffix]; [done | reflexivity]).
Qed.

(** X5: the match is on the whole text of the token. A token of type
    [Name] whose text is an entry of [EXTRA_KEYWORDS] followed by one or
    more further characters ([MPI_Comm_rank], [hid_t2]) is yielded
    unchanged. *)
Theorem keyword_prefix_not_reclassified upstream text (i : nat)
    index (kw suffix : string) :
  kw ∈ EXTRA_KEYWORDS ->
  suffix ≠ "" ->
  yielded (upstream text) !! i = Some (index, Name, kw ++ suffix) ->
  yielded (get_tokens_unprocessed upstream text) !! i
  = Some (index, Name, kw ++ suffix).
Proof.
  intros Hin Hne Hi. rewrite lookup_get_tokens_unprocessed, Hi.
  apply (f_equal Some), reclassify_other. intros [_ Hext].
  apply in_true_iff in Hext.
  by rewrite keyword_extended_not_keyword in Hext.
Qed.

Lemma keyword_prefix_not_reclassified_witness :
  "MPI_Comm" ∈ EXTRA_KEYWORDS
  ∧ "_rank" ≠ ""
  ∧ yielded (call_lexer "MPI_Comm_rank(c);") !! 0%nat
    = Some (0, Name, "MPI_Comm" ++ "_rank")
  ∧ yielded (get_tokens_unprocessed call_lexer "MPI_Comm_rank(c);") !! 0%nat
    = Some (0, Name, "MPI_Comm_rank").
Proof.
  assert (Hin : "MPI_Comm" ∈ EXTRA_KEYWORDS) by compute_done.
  assert (Hne : "_rank" ≠ "") by discriminate.
  assert (Hi : yielded (call_lexer "MPI_Comm_rank(c);") !! 0%nat
               = Some (0, Name, "MPI_Comm" ++ "_rank")) by reflexivity.
  split_and!; [exact Hin | exact Hne | exact Hi |].
  exact (keyword_prefix_not_reclassified call_lexer "MPI_Comm_rank(c);"
           0%nat 0 "MPI_Comm" "_rank" Hin Hne Hi).
Defined.

(** X6: where the keywords of the output come from. The override yields
    [(index, Keyword, value)] at place [i] exactly when the inherited
    lexer yields at place [i] that same token, or the token
    [(index, Name, value)] with [value] in [EXTRA_KEYWORDS]: no other
    token is turned into a keyword. *)
Theorem keyword_output_origin upstream text (i : nat) index value :
  yielded (get_tokens_unprocessed upstream text) !! i
  = Some (index, Keyword, value)
  <-> yielded (upstream text) !! i = Some (index, Keyword, value)
      ∨ (yielded (upstream text) !! i = Some (index, Name, value)
         ∧ value ∈ EXTRA_KEYWORDS).
Proof.
  rewrite lookup_get_tokens_unprocessed. split.
  - destruct (yielded (upstream text) !! i) as [item |] eqn:Hi; [| done].
    intros Hout. apply (inj Some) in Hout.
    destruct (decide (matches item)) as [Hm | Hm].
    + rewrite (reclassify_matches _ Hm) in Hout.
      destruct item as [[index' token] value'], Hm as [Htype Hin].
      simpl in *. simplify_eq. by right.
    + rewrite (reclassify_not_matches _ Hm) in Hout. subst item. by left.
  - intros [-> | [-> Hin]]; apply (f_equal Some).
    + apply reclassify_other. by intros [Heq _].
    + by apply reclassify_match.
Qed.

(** ** The override as the method of a lexer object *)

Lemma using_this_stack_raises CLexer depth (s : stack) (start : Z)
    (group : string) :
  using_this (Some s) (HDF5CLexer_method CLexer depth) start group
  = Raise "TypeError".
Proof. unfold using_this. by destruct depth. Qed.

Lemma for_in_yield_foldr_Yield {A B : Type} (body : A -> B)
    (pre : list A) (g : generator A) :
  for_in_yield body (foldr Yield g pre)
  = foldr Yield (for_in_yield body g) (body <$> pre).
Proof. induction pre as [| item pre IH]; simpl; [done | by rewrite IH]. Qed.

(** C8, where the code fails. The override takes [(self, text)], the
    method it overrides takes [(self, text, stack=('root',))]. When the
    inherited lexer, run for an [HDF5CLexer] object on [text], has
    yielded the tokens [pre] and reaches a rule whose action is
    [using(this, state=...)], that action calls
    [self.get_tokens_unprocessed(group, stack=s)], which is the override:
    the run of the override on [text] yields [pre], reclassified, and
    ends in a [TypeError] that the inherited lexer does not raise for
    its own objects. *)
Theorem stack_keyword_raises_TypeError
    (CLexer : bound_method -> string -> stack -> generator token_triple)
    (depth : nat) (text : string) (pre : list token_triple)
    (s : stack) (start : Z) (group : string)
    (rest : generator token_triple) :
  CLexer (HDF5CLexer_method CLexer depth) text ["root"]
  = foldr Yield
      (yield_from
         (using_this (Some s) (HDF5CLexer_method CLexer depth) start group)
         rest)
      pre ->
  HDF5CLexer_method CLexer (S depth) text None
  = foldr Yield (Raise "TypeError") (reclassify <$> pre)
  ∧ outcome (HDF5CLexer_method CLexer (S depth) text None) = Some "TypeError".
Proof.
  intros Hrun.
  assert (Htrace : HDF5CLexer_method CLexer (S depth) text None
                   = foldr Yield (Raise "TypeError") (reclassify <$> pre)).
  { simpl. unfold get_tokens_unprocessed.
    rewrite Hrun, using_this_stack_raises. simpl.
    by rewrite for_in_yield_foldr_Yield. }
  split; [exact Htrace |]. rewrite Htrace. clear Htrace Hrun.
  induction (reclassify <$> pre) as [| item l IH]; [done | exact IH].
Qed.

(** The run on the declaration [hid_t f();]: a plain [CLexer] object
    yields six tokens and is exhausted; an [HDF5CLexer] object yields two
    and raises. *)
Lemma stack_keyword_raises_TypeError_witness :
  declaration_lexer (HDF5CLexer_method declaration_lexer 1)
    "hid_t f();" ["root"]
  = foldr Yield
      (yield_from
         (using_this (Some ["root"; "whitespace"])
            (HDF5CLexer_method declaration_lexer 1) 6 "")
         (Yield (6, Name_Function, "f")
            (yield_from
               (using_this (Some ["root"; "whitespace"])
                  (HDF5CLexer_method declaration_lexer 1) 7 "")
               (yield_from
                  (using_this None (HDF5CLexer_method declaration_lexer 1)
                     7 "()")
                  (yield_from
                     (using_this (Some ["root"; "whitespace"])
                        (HDF5CLexer_method declaration_lexer 1) 9 "")
                     (yield_from
                        (using_this None
                           (HDF5CLexer_method declaration_lexer 1) 9 "")
                        (Yield (9, Punctuation, ";") StopIteration)))))))
      [(0, Keyword, "hid_t"); (5, Whitespace, " ")]
  ∧ CLexer_method declaration_lexer 2 "hid_t f();" None
    = Yield (0, Name, "hid_t")
        (Yield (5, Whitespace, " ")
           (Yield (6, Name_Function, "f")
              (Yield (7, Punctuation, "(")
                 (Yield (8, Punctuation, ")")
                    (Yield (9, Punctuation, ";") StopIteration)))))
  ∧ HDF5CLexer_method declaration_lexer 2 "hid_t f();" None
    = Yield (0, Keyword, "hid_t")
        (Yield (5, Whitespace, " ") (Raise "TypeError"))
  ∧ outcome (HDF5CLexer_method declaration_lexer 2 "hid_t f();" None)
    = Some "TypeError".
Proof.
  assert (Hrun :
    declaration_lexer (HDF5CLexer_method declaration_lexer 1)
      "hid_t f();" ["root"]
    = foldr Yield
        (yield_from
           (using_this (Some ["root"; "whitespace"])
              (HDF5CLexer_method declaration_lexer 1) 6 "")
           (Yield (6, Name_Function, "f")
              (yield_from
                 (using_this (Some ["root"; "whitespace"])
                    (HDF5CLexer_method declaration_lexer 1) 7 "")
                 (yield_from
                    (using_this None (HDF5CLexer_method declaration_lexer 1)
                       7 "()")
                    (yield_from
                       (using_this (Some ["root"; "whitespace"])
                          (HDF5CLexer_method declaration_lexer 1) 9 "")
                       (yield_from
                          (using_this None
                             (HDF5CLexer_method declaration_lexer 1) 9 "")
                          (Yield (9, Punctuation, ";") StopIteration)))))))
        [(0, Keyword, "hid_t"); (5, Whitespace, " ")]) by reflexivity.
  split_and!; [exact Hrun | reflexivity | ..].
  - exact (proj1 (stack_keyword_raises_TypeError declaration_lexer 1
                    "hid_t f();" _ _ 6 "" _ Hrun)).
  - exact (proj2 (stack_keyword_raises_TypeError declaration_lexer 1
                    "hid_t f();" _ _ 6 "" _ Hrun)).
Defined.
